(** * The e-book chapter slicer of [epub/epub_processor.py]

    A shallow embedding of the six functions of the script
    ([extract_text_by_bookmark], [extract_text_after_anchor],
    [extract_text_before_anchor], [extract_text_between_anchors],
    [extract_bookmarks], [split_text_by_bookmarks]) together with the
    part of Python's [str] and of BeautifulSoup's tree interface they
    call into.

    Conventions.
    - A Python [str] is a Rocq [string]; one [ascii] stands for one code
      point (those below 256).
    - [print] is modelled by a writer: a function that may print returns
      its value paired with the lines it printed, in order.
    - A parsed document ([BeautifulSoup(...)]) is the tag named
      ["[document]"] holding the top-level nodes.  Decoding and parsing
      belong to the collaborators ([chardet], [html.parser]); an item of
      a book carries its parsed tree. *)

From Stdlib Require Import List String Ascii Bool Arith Lia.
From Stdlib Require Import Numbers.DecimalString.
Import ListNotations.
Open Scope list_scope.
Open Scope string_scope.

Set Warnings "-register-all".

(* ================================================================== *)
(** ** Python strings *)
(* ================================================================== *)

Module PyStr.

(** [c.isspace()] for the code points below 256: U+0009..U+000D,
    U+001C..U+0020, U+0085 and U+00A0. *)
Definition is_space (c : ascii) : bool :=
  let n := nat_of_ascii c in
  (Nat.leb 9 n && Nat.leb n 13) || (Nat.leb 28 n && Nat.leb n 32)
  || Nat.eqb n 133 || Nat.eqb n 160.

(** [s.lstrip()] *)
Fixpoint lstrip (s : string) : string :=
  match s with
  | EmptyString => EmptyString
  | String c r => if is_space c then lstrip r else s
  end.

(** [s.rstrip()] *)
Fixpoint rstrip (s : string) : string :=
  match s with
  | EmptyString => EmptyString
  | String c r =>
      match rstrip r with
      | EmptyString => if is_space c then EmptyString else String c EmptyString
      | r' => String c r'
      end
  end.

(** [s.strip()] *)
Definition strip (s : string) : string := rstrip (lstrip s).

(** A string is trimmed when stripping leaves it as it is. *)
Definition trimmed (s : string) : Prop := strip s = s.

(** [sep.join(l)] *)
Fixpoint join (sep : string) (l : list string) : string :=
  match l with
  | [] => ""
  | [x] => x
  | x :: r => x ++ sep ++ join sep r
  end.

(** [sub in s]: [sub] occurs in [s] as a contiguous substring. *)
Fixpoint contains (sub s : string) : bool :=
  prefix sub s ||
  match s with
  | EmptyString => false
  | String _ r => contains sub r
  end.

(** The truth value of a string: [if s:] *)
Definition truthy (s : string) : bool :=
  match s with EmptyString => false | _ => true end.

(** [s.split(c)] for a one-character separator: the pieces between the
    occurrences of [c]; always at least one piece. *)
Fixpoint split (c : ascii) (s : string) : list string :=
  match s with
  | EmptyString => [""]
  | String d r =>
      if Ascii.eqb d c then "" :: split c r
      else match split c r with
           | [] => [String d ""]
           | p :: ps => String d p :: ps
           end
  end.

(** [str(n)] for a non-negative integer: its decimal digits. *)
Definition str (n : nat) : string := NilEmpty.string_of_uint (Nat.to_uint n).

(** [l.count(x)] on a list of strings *)
Definition count (x : string) (l : list string) : nat :=
  count_occ string_dec l x.

(** [x in l] on a list of strings *)
Definition mem (x : string) (l : list string) : bool :=
  existsb (String.eqb x) l.

(** [l[:-1]] *)
Definition but_last {A : Type} (l : list A) : list A := removelast l.

End PyStr.

(* ================================================================== *)
(** ** Printing *)
(* ================================================================== *)

(** A computation that may print: its value and the printed lines. *)
Definition Out (A : Type) : Type := (A * list string)%type.

Definition ret {A : Type} (a : A) : Out A := (a, []).

Definition bind {A B : Type} (m : Out A) (k : A -> Out B) : Out B :=
  let (a, l1) := m in
  let (b, l2) := k a in
  (b, (l1 ++ l2)%list).

Definition print (line : string) : Out unit := (tt, [line]).

Definition value {A : Type} (m : Out A) : A := fst m.
Definition printed {A : Type} (m : Out A) : list string := snd m.

Notation "x <- c1 ;; c2" := (bind c1 (fun x => c2))
  (at level 61, c1 at next level, right associativity).
Notation "c1 ;;; c2" := (bind c1 (fun _ => c2))
  (at level 61, right associativity).

(* ================================================================== *)
(** ** The document tree (BeautifulSoup) *)
(* ================================================================== *)

Module Soup.

(** A node is a string or a tag with a name, an attribute dictionary and
    its contents. *)
Inductive node : Type :=
  | NavigableString (s : string)
  | Tag (name : string) (attrs : list (string * string)) (contents : list node).

(** [attrs.get(key)] *)
Fixpoint get (key : string) (attrs : list (string * string)) : option string :=
  match attrs with
  | [] => None
  | (k, v) :: r => if String.eqb k key then Some v else get key r
  end.

Definition opt_eqb (a b : option string) : bool :=
  match a, b with
  | Some x, Some y => String.eqb x y
  | None, None => true
  | _, _ => false
  end.

(** Equality of two attribute dictionaries: the same value under every
    key. *)
Definition attrs_eqb (a b : list (string * string)) : bool :=
  forallb (fun kv => opt_eqb (get (fst kv) a) (get (fst kv) b)) (a ++ b)%list.

(** [a == b] on nodes.  Two tags are equal when they have the same name,
    the same attributes and pairwise equal contents ([Tag.__eq__]); two
    strings when they are the same text; a tag never equals a string. *)
Fixpoint node_eqb (a b : node) {struct a} : bool :=
  match a, b with
  | NavigableString s, NavigableString t => String.eqb s t
  | Tag n1 a1 c1, Tag n2 a2 c2 =>
      String.eqb n1 n2 && attrs_eqb a1 a2 &&
      (fix all2 (l1 l2 : list node) {struct l1} : bool :=
         match l1, l2 with
         | [], [] => true
         | x :: r1, y :: r2 => node_eqb x y && all2 r1 r2
         | _, _ => false
         end) c1 c2
  | _, _ => false
  end.

(** [n.get_text()]: every string below [n], concatenated in document
    order. *)
Fixpoint get_text (n : node) : string :=
  match n with
  | NavigableString s => s
  | Tag _ _ contents =>
      (fix cat (l : list node) : string :=
         match l with
         | [] => ""
         | x :: r => get_text x ++ cat r
         end) contents
  end.

(** The parsed document: the tag named ["[document]"]. *)
Definition BeautifulSoup (contents : list node) : node :=
  Tag "[document]" [] contents.

(** The test of [find(id=anchor)] on one node: a tag whose [id]
    attribute is [anchor].  (For the empty anchor, releases of the
    library before 4.13 also accept a tag that has no [id]; the
    processor reaches [find] with an empty anchor only through
    [extract_text_between_anchors], and the results below take the
    outcome of [find] as given.) *)
Definition has_id (anchor : string) (n : node) : bool :=
  match n with
  | NavigableString _ => false
  | Tag _ attrs _ =>
      match get "id" attrs with
      | Some v => String.eqb v anchor
      | None => false
      end
  end.

(** A found element with its place among its siblings: the siblings
    before it, the element, the siblings after it, all in document
    order. *)
Definition place : Type := (list node * node * list node)%type.

(** [n.find(id=anchor)]: the first tag below [n], in document order,
    whose [id] is [anchor]; [None] when there is none. *)
Fixpoint find (anchor : string) (n : node) {struct n} : option place :=
  match n with
  | NavigableString _ => None
  | Tag _ _ contents =>
      (fix scan (prevs l : list node) {struct l} : option place :=
         match l with
         | [] => None
         | x :: rest =>
             if has_id anchor x then Some (prevs, x, rest)
             else match find anchor x with
                  | Some p => Some p
                  | None => scan (prevs ++ [x])%list rest
                  end
         end) [] contents
  end.

(** [element.next_siblings], nearest first. *)
Definition next_siblings (p : place) : list node :=
  let '(_, _, nexts) := p in nexts.

(** [element.previous_siblings], nearest first. *)
Definition previous_siblings (p : place) : list node :=
  let '(prevs, _, _) := p in rev prevs.

Definition element (p : place) : node :=
  let '(_, e, _) := p in e.

End Soup.

(* ================================================================== *)
(** ** The book (ebooklib) *)
(* ================================================================== *)

Module Epub.

(** An entry of a table of contents: an [epub.Link], a tuple of a
    section and its children, or anything else (for instance a bare
    [epub.Section]), which [extract_bookmarks] passes over. *)
Inductive toc_item : Type :=
  | Link (title href : string)
  | Group (section_title : string) (children : list toc_item)
  | Other.

(** A content item: its file name and its parsed content. *)
Record item : Type := mkItem {
  file_name : string;
  soup : Soup.node
}.

Record book : Type := mkBook {
  get_items : list item;
  toc : list toc_item
}.

End Epub.

(* ================================================================== *)
(** ** The processor *)
(* ================================================================== *)

Module Processor.

Import PyStr Soup Epub.

Definition NL : string := String (ascii_of_nat 10) "".

Definition anchor_not_found : string := "Anchor not found in the document.".
Definition href_not_found : string := "href not found.".

(** One round of the sibling loops: a tag with a name appends its text,
    a string appends its stripped content, anything else appends
    nothing. *)
Definition sibling_text (sibling : node) : option string :=
  match sibling with
  | Tag name _ _ => if truthy name then Some (get_text sibling) else None
  | NavigableString s => Some (strip s)
  end.

(** [result.append(...)] of one round *)
Definition append_sibling (result : list string) (sibling : node) : list string :=
  match sibling_text sibling with
  | Some t => (result ++ [t])%list
  | None => result
  end.

(** [result.insert(0, ...)] of one round *)
Definition insert_sibling (result : list string) (sibling : node) : list string :=
  match sibling_text sibling with
  | Some t => t :: result
  | None => result
  end.

(** The list [result] as it stands before the sibling loop: the
    element's own text when it is not empty. *)
Definition own_text (element : node) : list string :=
  if truthy (get_text element) then [get_text element] else [].

Definition extract_text_after_anchor (soup : node) (anchor : string) : Out string :=
  match find anchor soup with
  | None => print anchor_not_found ;;; ret ""
  | Some p =>
      let result := own_text (element p) in
      let result := fold_left append_sibling (next_siblings p) result in
      ret (join NL result)
  end.

Definition extract_text_before_anchor (soup : node) (anchor : string) : Out string :=
  match find anchor soup with
  | None => print anchor_not_found ;;; ret ""
  | Some p =>
      let result := fold_left insert_sibling (previous_siblings p) [] in
      ret (strip (join NL result))
  end.

(** The loop of [extract_text_between_anchors]: it leaves at the first
    sibling equal to the end element. *)
Fixpoint walk_until (end_element : node) (siblings : list node)
    (result : list string) : list string :=
  match siblings with
  | [] => result
  | sibling :: rest =>
      if node_eqb sibling end_element then result
      else walk_until end_element rest (append_sibling result sibling)
  end.

Definition extract_text_between_anchors (soup : node) (start_anchor end_anchor : string)
    : Out string :=
  match find start_anchor soup with
  | None => extract_text_before_anchor soup end_anchor
  | Some ps =>
      match find end_anchor soup with
      | None => extract_text_after_anchor soup start_anchor
      | Some pe =>
          let result := own_text (element ps) in
          let result := walk_until (element pe) (next_siblings ps) result in
          ret (strip (join NL result))
      end
  end.

(** [href.split("#")[0]] *)
Definition href_name (href : string) : string :=
  hd "" (split "#" href).

(** [href.split("#")[1] if "#" in href else ""] *)
Definition href_anchor (href : string) : string :=
  if contains "#" href then nth 1 (split "#" href) "" else "".

(** The first loop of [extract_text_by_bookmark]: it returns at the
    first item whose file name contains the name. *)
Fixpoint first_match (name : string) (items : list item) : option item :=
  match items with
  | [] => None
  | it :: rest =>
      if contains name (file_name it) then Some it else first_match name rest
  end.

(** The state of the second loop: [flag], [text] and what was printed. *)
Record scan_state : Type := mkScan {
  flag : bool;
  text : string;
  lines : list string
}.

(** One round of the second loop. *)
Definition scan_step (start_name end_name start_anchor end_anchor : string)
    (st : scan_state) (it : item) : scan_state :=
  if contains start_name (file_name it) then
    if truthy start_anchor then
      let (t, l) := extract_text_after_anchor (soup it) start_anchor in
      mkScan true (text st ++ t) (lines st ++ l)
    else
      mkScan true (text st ++ get_text (soup it)) (lines st)
  else if contains end_name (file_name it) then
    if truthy end_anchor then
      let (t, l) := extract_text_before_anchor (soup it) end_anchor in
      mkScan false (text st ++ t) (lines st ++ l)
    else
      mkScan false (text st) (lines st)
  else if flag st then
    mkScan (flag st) (text st ++ get_text (soup it)) (lines st)
  else st.

(** The second loop, from a given state. *)
Definition scan (start_name end_name start_anchor end_anchor : string)
    (st : scan_state) (items : list item) : scan_state :=
  fold_left (scan_step start_name end_name start_anchor end_anchor) items st.

Definition extract_text_by_bookmark (b : book) (start_href end_href : string)
    : Out string :=
  let start_name := href_name start_href in
  let end_name := href_name end_href in
  let start_anchor := href_anchor start_href in
  let end_anchor := href_anchor end_href in
  if String.eqb start_name end_name then
    match first_match start_name (get_items b) with
    | Some it => extract_text_between_anchors (soup it) start_anchor end_anchor
    | None => print href_not_found ;;; ret ""
    end
  else
    let st := scan start_name end_name start_anchor end_anchor
                (mkScan false "" []) (get_items b) in
    (text st, lines st).

(** A bookmark: a title and an href. *)
Definition bookmark : Type := (string * string)%type.

(** One round of the loop of [extract_bookmarks] on the list [titles];
    the list of bookmarks the round adds comes with the new [titles].
    A group is flattened by a call of its own, which starts from an
    empty [titles]. *)
Fixpoint extract_item (prefix : string) (titles : list string) (it : toc_item)
    {struct it} : list string * list bookmark :=
  match it with
  | Link item_title href =>
      let title := if truthy prefix then prefix ++ "|" ++ item_title else item_title in
      let titles := (titles ++ [title])%list in
      let title :=
        if mem title (but_last titles) then title ++ str (count title titles + 1)
        else title in
      (titles, [(title, href)])
  | Group section_title children =>
      (titles,
       (fix loop (ts : list string) (l : list toc_item) {struct l} : list bookmark :=
          match l with
          | [] => []
          | x :: r =>
              let (ts', bs) := extract_item section_title ts x in
              (bs ++ loop ts' r)%list
          end) [] children)
  | Other => (titles, [])
  end.

(** The loop of [extract_bookmarks] from a given [titles]. *)
Fixpoint extract_loop (prefix : string) (titles : list string) (l : list toc_item)
    : list bookmark :=
  match l with
  | [] => []
  | x :: r =>
      let (ts', bs) := extract_item prefix titles x in
      (bs ++ extract_loop prefix ts' r)%list
  end.

Definition extract_bookmarks (toc : list toc_item) (prefix : string) : list bookmark :=
  extract_loop prefix [] toc.

(** A chapter: the dictionary with the keys ["title"] and ["content"]. *)
Record chapter : Type := mkChapter {
  title : string;
  content : string
}.

(** The loop of [split_text_by_bookmarks] from index [i] on, [rest]
    being [bookmarks[i:]]. *)
Fixpoint split_loop (b : book) (bookmarks : list bookmark) (n i : nat)
    (rest : list bookmark) : Out (list chapter) :=
  match rest with
  | [] => ret []
  | (title, href) :: rest' =>
      let end_href :=
        if Nat.ltb i (n - 1) then snd (nth (i + 1) bookmarks ("", "")) else "" in
      c <- extract_text_by_bookmark b href end_href ;;
      print title ;;;
      cs <- split_loop b bookmarks n (i + 1) rest' ;;
      ret (mkChapter title c :: cs)
  end.

Definition split_text_by_bookmarks (b : book) : Out (list chapter) :=
  let bookmarks := extract_bookmarks (toc b) "" in
  let n := List.length bookmarks in
  split_loop b bookmarks n 0 bookmarks.

End Processor.

(* ================================================================== *)
(** ** Descriptions of the results, for comparison with the code *)
(* ================================================================== *)

Module Described.

Import PyStr Soup Epub Processor.

(** The texts that a run of siblings contributes, in the order of the
    run. *)
Definition pieces (siblings : list node) : list string :=
  flat_map (fun n => match sibling_text n with Some t => [t] | None => [] end)
           siblings.

(** The siblings standing before the first one equal to [end_element]. *)
Fixpoint siblings_before (end_element : node) (siblings : list node) : list node :=
  match siblings with
  | [] => []
  | s :: r => if node_eqb s end_element then [] else s :: siblings_before end_element r
  end.

(** The fragments of a span inside one document: the start node's own
    text, then the texts of the siblings after it, up to the end node
    and without it. *)
Definition span_fragments (ps pe : place) : list string :=
  (own_text (element ps)
   ++ pieces (siblings_before (element pe) (next_siblings ps)))%list.

(** What a document matching the start name contributes. *)
Definition start_piece (start_anchor : string) (it : item) : Out string :=
  if truthy start_anchor then extract_text_after_anchor (soup it) start_anchor
  else ret (get_text (soup it)).

(** What a document matching the end name (and not the start name)
    contributes. *)
Definition end_piece (end_anchor : string) (it : item) : Out string :=
  if truthy end_anchor then extract_text_before_anchor (soup it) end_anchor
  else ret "".

(** The texts taken from the documents of a collection, one per
    contributing document, in collection order. *)
Fixpoint document_texts (start_name end_name start_anchor end_anchor : string)
    (flag : bool) (items : list item) : list string :=
  match items with
  | [] => []
  | it :: rest =>
      if contains start_name (file_name it) then
        value (start_piece start_anchor it)
        :: document_texts start_name end_name start_anchor end_anchor true rest
      else if contains end_name (file_name it) then
        value (end_piece end_anchor it)
        :: document_texts start_name end_name start_anchor end_anchor false rest
      else if flag then
        get_text (soup it)
        :: document_texts start_name end_name start_anchor end_anchor flag rest
      else document_texts start_name end_name start_anchor end_anchor flag rest
  end.

(** The items of a collection whose file name contains [name]. *)
Definition matching (name : string) (items : list item) : list item :=
  filter (fun it => contains name (file_name it)) items.

End Described.

(* ================================================================== *)
(** ** Sample documents and books *)
(* ================================================================== *)

Module Samples.

Import PyStr Soup Epub Processor.

(** [<h1 id="s">X</h1><p>Y</p><h1 id="e">Z</h1>] *)
Definition doc_sye : node :=
  BeautifulSoup
    [Tag "h1" [("id", "s")] [NavigableString "X"];
     Tag "p" [] [NavigableString "Y"];
     Tag "h1" [("id", "e")] [NavigableString "Z"]].

(** [<p id="s">X</p><p>Y</p>] *)
Definition doc_sy : node :=
  BeautifulSoup
    [Tag "p" [("id", "s")] [NavigableString "X"];
     Tag "p" [] [NavigableString "Y"]].

(** [<p id="s">X</p>] *)
Definition doc_s : node :=
  BeautifulSoup [Tag "p" [("id", "s")] [NavigableString "X"]].

Definition item_a : item := mkItem "a.html" (BeautifulSoup [NavigableString "X"]).
Definition item_b : item := mkItem "b.html" (BeautifulSoup [NavigableString "Y"]).
Definition item_c : item := mkItem "c.html" (BeautifulSoup [NavigableString "Z"]).

(** Two documents, one bookmark on each. *)
Definition book_ab : book :=
  mkBook [item_a; item_b] [Link "A" "a.html"; Link "B" "b.html"].

(** A book without the document ["a.html"]. *)
Definition book_b : book := mkBook [item_b] [Link "A" "a.html"].

(** Two documents with blanks at the outer ends of their texts. *)
Definition book_blanks : book :=
  mkBook [mkItem "a.html" (BeautifulSoup [NavigableString " X"]);
          mkItem "b.html" (BeautifulSoup [NavigableString "Y "])]
         [Link "A" "a.html"].

(** One document holding a whole span. *)
Definition book_one : book :=
  mkBook [mkItem "a.html" doc_sye] [Link "S" "a.html#s"; Link "E" "a.html#e"].

(** The start document occurs once more after the end document. *)
Definition book_aba : book :=
  mkBook [item_a; item_b; item_c; mkItem "old/a.html" (BeautifulSoup [NavigableString "W"])]
         [Link "A" "a.html"; Link "B" "b.html"].

End Samples.

(* ================================================================== *)
(** ** Further descriptions and samples *)
(* ================================================================== *)

Module Outline.

Import PyStr Soup Epub Processor.

(** The hrefs of the links of an entry, depth first. *)
Fixpoint link_hrefs (it : toc_item) : list string :=
  match it with
  | Link _ href => [href]
  | Group _ children =>
      (fix all (l : list toc_item) : list string :=
         match l with
         | [] => []
         | x :: r => (link_hrefs x ++ all r)%list
         end) children
  | Other => []
  end.

(** The hrefs of the links of a table of contents, depth first. *)
Definition toc_hrefs (toc : list toc_item) : list string :=
  flat_map link_hrefs toc.

(** The title a link is given before numbering. *)
Definition prefixed (prefix item_title : string) : string :=
  if truthy prefix then prefix ++ "|" ++ item_title else item_title.

(** A table of contents made of links only. *)
Definition links (l : list (string * string)) : list toc_item :=
  map (fun th => Link (fst th) (snd th)) l.


(** No item of the list has a file name containing [name]. *)
Definition none_matches (name : string) (items : list item) : Prop :=
  forall it, In it items -> contains name (file_name it) = false.

(** Induction on the entries of a table of contents. *)
Section TocInduction.

Variable P : toc_item -> Prop.
Hypothesis P_link : forall t h, P (Link t h).
Hypothesis P_group : forall g children, Forall P children -> P (Group g children).
Hypothesis P_other : P Other.

Fixpoint toc_item_induction (it : toc_item) : P it :=
  match it with
  | Link t h => P_link t h
  | Group g children =>
      P_group g children
        ((fix all (l : list toc_item) : Forall P l :=
            match l with
            | [] => Forall_nil P
            | x :: r => Forall_cons x (toc_item_induction x) (all r)
            end) children)
  | Other => P_other
  end.

End TocInduction.

(** [<p>A</p> text <h1 id="e">Z</h1><p>B</p>], the text with blanks
    around it *)
Definition doc_before : node :=
  BeautifulSoup
    [Tag "p" [] [NavigableString "A"];
     NavigableString "  t  ";
     Tag "h1" [("id", "e")] [NavigableString "Z"];
     Tag "p" [] [NavigableString "B"]].

(** [<h1 id="e">Z</h1><h1 id="s">X</h1><p>Y</p>]: the end anchor
    stands before the start anchor. *)
Definition doc_reversed : node :=
  BeautifulSoup
    [Tag "h1" [("id", "e")] [NavigableString "Z"];
     Tag "h1" [("id", "s")] [NavigableString "X"];
     Tag "p" [] [NavigableString "Y"]].

Definition item_cover : item :=
  mkItem "cover.html" (BeautifulSoup [NavigableString "C"]).
Definition item_one : item :=
  mkItem "Text/one.html"
    (BeautifulSoup [Tag "h1" [("id", "s")] [NavigableString "S"];
                    Tag "p" [] [NavigableString "T"]]).
Definition item_mid : item :=
  mkItem "Text/mid.html" (BeautifulSoup [NavigableString "M"]).
Definition item_two : item :=
  mkItem "Text/two.html"
    (BeautifulSoup [Tag "p" [] [NavigableString "U"];
                    Tag "h1" [("id", "e")] [NavigableString "V"]]).
Definition item_last : item :=
  mkItem "last.html" (BeautifulSoup [NavigableString "L"]).

(** A book of five documents with a bookmark in the second and one in
    the fourth. *)
Definition book_five : book :=
  mkBook [item_cover; item_one; item_mid; item_two; item_last]
         [Link "One" "one.html#s"; Link "Two" "two.html#e"].

End Outline.

(* ================================================================== *)
(** ** Facts about the string operations *)
(* ================================================================== *)

Module PyStrFacts.

Import PyStr.

Lemma contains_empty (s : string) : contains "" s = true.
Proof. destruct s; reflexivity. Qed.

Lemma lstrip_head (s : string) :
  match lstrip s with
  | EmptyString => True
  | String c _ => is_space c = false
  end.
Proof.
  induction s as [|c r IH]; simpl; [exact I|].
  destruct (is_space c) eqn:E; [exact IH | exact E].
Qed.

Lemma rstrip_cons (c : ascii) (r : string) :
  is_space c = false -> exists r', rstrip (String c r) = String c r'.
Proof.
  intros E. simpl. destruct (rstrip r).
  - rewrite E. now exists "".
  - eexists. reflexivity.
Qed.

Lemma rstrip_idem (s : string) : rstrip (rstrip s) = rstrip s.
Proof.
  induction s as [|c r IH]; [reflexivity|].
  cbn [rstrip]. destruct (rstrip r) as [|a t] eqn:E.
  - destruct (is_space c) eqn:Ec; [reflexivity|].
    cbn [rstrip]. now rewrite Ec.
  - change (rstrip (String c (String a t)))
      with (match rstrip (String a t) with
            | EmptyString => if is_space c then EmptyString else String c EmptyString
            | r' => String c r'
            end).
    now rewrite IH.
Qed.

Lemma strip_idem (s : string) : strip (strip s) = strip s.
Proof.
  unfold strip. pose proof (lstrip_head s) as H.
  destruct (lstrip s) as [|c r]; [reflexivity|].
  destruct (rstrip_cons c r H) as [r' E]. rewrite E.
  cbn [lstrip]. rewrite H. now rewrite <- E, rstrip_idem.
Qed.

Lemma strip_trimmed (s : string) : trimmed (strip s).
Proof. apply strip_idem. Qed.

Lemma but_last_snoc (l : list string) (x : string) : but_last (l ++ [x]) = l.
Proof. apply removelast_last. Qed.

Lemma count_snoc (l : list string) (x : string) :
  count x (l ++ [x]) = count x l + 1.
Proof.
  unfold count. rewrite count_occ_app. simpl.
  now destruct (string_dec x x).
Qed.

Lemma append_nil_r (s : string) : s ++ "" = s.
Proof. induction s as [|c r IH]; simpl; [reflexivity | now rewrite IH]. Qed.

Lemma append_assoc (s t u : string) : (s ++ t) ++ u = s ++ t ++ u.
Proof. induction s as [|c r IH]; simpl; [reflexivity | now rewrite IH]. Qed.

(** Joining with the empty separator is plain concatenation. *)
Lemma join_empty_cons (x : string) (l : list string) :
  join "" (x :: l) = x ++ join "" l.
Proof. destruct l; simpl; [now rewrite append_nil_r | reflexivity]. Qed.

End PyStrFacts.

(* ================================================================== *)
(** ** Facts about the sibling loops *)
(* ================================================================== *)

Module LoopFacts.

Import PyStr Soup Epub Processor Described.

Lemma fold_append_sibling (l : list node) (result : list string) :
  fold_left append_sibling l result = (result ++ pieces l)%list.
Proof.
  revert result. induction l as [|s r IH]; intros result; simpl.
  - now rewrite app_nil_r.
  - rewrite IH. unfold append_sibling.
    destruct (sibling_text s); simpl; [now rewrite <- app_assoc | reflexivity].
Qed.

Lemma pieces_app (l1 l2 : list node) :
  pieces (l1 ++ l2) = (pieces l1 ++ pieces l2)%list.
Proof. unfold pieces. now rewrite flat_map_app. Qed.

(** Inserting at the front while running through the siblings from the
    nearest one backwards restores the document order. *)
Lemma fold_insert_sibling (l : list node) (result : list string) :
  fold_left insert_sibling l result = (pieces (rev l) ++ result)%list.
Proof.
  revert result. induction l as [|s r IH]; intros result; simpl; [reflexivity|].
  rewrite IH, pieces_app, <- app_assoc. f_equal.
  unfold insert_sibling, pieces. simpl.
  destruct (sibling_text s); reflexivity.
Qed.

Lemma before_in_document_order (p : place) :
  fold_left insert_sibling (previous_siblings p) [] = pieces (fst (fst p)).
Proof.
  destruct p as [[prevs e] nexts]. unfold previous_siblings.
  now rewrite fold_insert_sibling, rev_involutive, app_nil_r.
Qed.

Lemma walk_until_pieces (e : node) (l : list node) (result : list string) :
  walk_until e l result = (result ++ pieces (siblings_before e l))%list.
Proof.
  revert result. induction l as [|s r IH]; intros result; simpl.
  - now rewrite app_nil_r.
  - destruct (node_eqb s e); simpl; [now rewrite app_nil_r|].
    rewrite IH. unfold append_sibling.
    destruct (sibling_text s); simpl; [now rewrite <- app_assoc | reflexivity].
Qed.

Lemma siblings_before_all (e : node) (l : list node) :
  (forall s, In s l -> node_eqb s e = false) -> siblings_before e l = l.
Proof.
  induction l as [|s r IH]; intros H; simpl; [reflexivity|].
  rewrite (H s (or_introl eq_refl)). f_equal. apply IH.
  intros x Hx. apply H. now right.
Qed.

(** The inner loop of a group is the loop of [extract_bookmarks]. *)
Lemma group_loop (g : string) (children : list toc_item) (titles : list string) :
  (fix loop (ts : list string) (l : list toc_item) {struct l} : list bookmark :=
     match l with
     | [] => []
     | x :: r =>
         let (ts', bs) := extract_item g ts x in
         (bs ++ loop ts' r)%list
     end) titles children
  = extract_loop g titles children.
Proof.
  revert titles. induction children as [|x r IH]; intros titles; simpl; [reflexivity|].
  destruct (extract_item g titles x) as [ts' bs]. now rewrite IH.
Qed.

Lemma extract_item_group (prefix g : string) (titles : list string)
    (children : list toc_item) :
  extract_item prefix titles (Group g children) = (titles, extract_bookmarks children g).
Proof. simpl. now rewrite group_loop. Qed.

(** A link whose title was met before gets the number of the earlier
    occurrences plus two as its suffix. *)
Lemma extract_item_duplicate (prefix t href : string) (titles : list string) :
  let title := if truthy prefix then prefix ++ "|" ++ t else t in
  mem title titles = true ->
  extract_item prefix titles (Link t href)
  = ((titles ++ [title])%list, [(title ++ str (count title titles + 2), href)]).
Proof.
  intros title H. cbn [extract_item]. fold title. cbv zeta.
  rewrite PyStrFacts.but_last_snoc, H, PyStrFacts.count_snoc.
  now replace (count title titles + 1 + 1) with (count title titles + 2) by lia.
Qed.

Lemma extract_item_fresh (prefix t href : string) (titles : list string) :
  let title := if truthy prefix then prefix ++ "|" ++ t else t in
  mem title titles = false ->
  extract_item prefix titles (Link t href) = ((titles ++ [title])%list, [(title, href)]).
Proof.
  intros title H. cbn [extract_item]. fold title. cbv zeta.
  now rewrite PyStrFacts.but_last_snoc, H.
Qed.

End LoopFacts.

(* ================================================================== *)
(** ** Extraction relative to anchors inside one document *)
(* ================================================================== *)

Module Anchors.

Import PyStr Soup Epub Processor Described Samples.

Lemma join_own_text (e : node) : join NL (own_text e) = get_text e.
Proof. unfold own_text. destruct (get_text e); reflexivity. Qed.

(** A missing anchor makes the two one-anchor helpers print the
    diagnostic and return the empty string. *)
Lemma after_anchor_missing (soup : node) (anchor : string) :
  find anchor soup = None ->
  extract_text_after_anchor soup anchor = ("", [anchor_not_found]).
Proof. intros H. unfold extract_text_after_anchor. now rewrite H. Qed.

Lemma before_anchor_missing (soup : node) (anchor : string) :
  find anchor soup = None ->
  extract_text_before_anchor soup anchor = ("", [anchor_not_found]).
Proof. intros H. unfold extract_text_before_anchor. now rewrite H. Qed.

(** The text before an anchor: the texts of the preceding siblings in
    document order, joined by newline, trimmed. *)
Lemma before_anchor_found (soup : node) (anchor : string) (p : place) :
  find anchor soup = Some p ->
  extract_text_before_anchor soup anchor
  = ret (strip (join NL (pieces (fst (fst p))))).
Proof.
  intros H. unfold extract_text_before_anchor.
  now rewrite H, LoopFacts.before_in_document_order.
Qed.

(** The text after an anchor: the element's own text and the texts of
    the following siblings, joined by newline. *)
Lemma after_anchor_found (soup : node) (anchor : string) (p : place) :
  find anchor soup = Some p ->
  extract_text_after_anchor soup anchor
  = ret (join NL (own_text (element p) ++ pieces (next_siblings p))).
Proof.
  intros H. unfold extract_text_after_anchor.
  now rewrite H, LoopFacts.fold_append_sibling.
Qed.

(** The text between two anchors that are both found: the fragments of
    the span joined by newline, trimmed. *)
Lemma between_anchors_found (soup : node) (sa ea : string) (ps pe : place) :
  find sa soup = Some ps -> find ea soup = Some pe ->
  extract_text_between_anchors soup sa ea
  = ret (strip (join NL (span_fragments ps pe))).
Proof.
  intros Hs He. unfold extract_text_between_anchors, span_fragments.
  now rewrite Hs, He, LoopFacts.walk_until_pieces.
Qed.

(** C7.  When the end anchor node is absent, extracting between the two
    anchors gives the same result (text and printed lines) as extracting
    after the start anchor alone; when the start anchor node is absent,
    it gives the same result as extracting before the end anchor
    alone. *)
Theorem between_falls_back (soup : node) (start_anchor end_anchor : string) :
  (find end_anchor soup = None ->
   extract_text_between_anchors soup start_anchor end_anchor
   = extract_text_after_anchor soup start_anchor)
  /\
  (find start_anchor soup = None ->
   extract_text_between_anchors soup start_anchor end_anchor
   = extract_text_before_anchor soup end_anchor).
Proof.
  split; intros H; unfold extract_text_between_anchors.
  - destruct (find start_anchor soup) eqn:E.
    + now rewrite H.
    + rewrite (before_anchor_missing _ _ H).
      now rewrite (after_anchor_missing _ _ E).
  - now rewrite H.
Qed.

Lemma between_falls_back_witness :
  extract_text_between_anchors doc_sye "s" "zz" = extract_text_after_anchor doc_sye "s"
  /\ extract_text_between_anchors doc_sye "zz" "e" = extract_text_before_anchor doc_sye "e".
Proof.
  split.
  - apply (proj1 (between_falls_back doc_sye "s" "zz")). reflexivity.
  - apply (proj2 (between_falls_back doc_sye "zz" "e")). reflexivity.
Defined.

(** C8.  In a document whose top level is an element with id "s" and
    text "X", a <p> with text "Y" and an element with id "e" and text
    "Z", the text between "s" and "e" is "X", a newline, "Y"; nothing is
    printed.  The names of the two anchor elements are arbitrary. *)
Theorem between_s_and_e (name_s name_e : string) :
  extract_text_between_anchors
    (BeautifulSoup
       [Tag name_s [("id", "s")] [NavigableString "X"];
        Tag "p" [] [NavigableString "Y"];
        Tag name_e [("id", "e")] [NavigableString "Z"]])
    "s" "e"
  = ("X" ++ NL ++ "Y", []).
Proof.
  unfold extract_text_between_anchors. cbn [find BeautifulSoup has_id get String.eqb
    Ascii.eqb Bool.eqb app element next_siblings].
  cbn [walk_until node_eqb attrs_eqb forallb app fst get opt_eqb String.eqb andb].
  rewrite andb_false_r. cbn [andb].
  rewrite String.eqb_refl. reflexivity.
Qed.

(** C3, the statement as written fails: in [<p id="s">X</p><p>Y</p>]
    the span from "s" to "s" also takes the text of the sibling that
    follows. *)
Lemma zero_width_span_takes_followers :
  find "s" doc_sy
  = Some ([], Tag "p" [("id", "s")] [NavigableString "X"],
          [Tag "p" [] [NavigableString "Y"]])
  /\ value (extract_text_between_anchors doc_sy "s" "s") = "X" ++ NL ++ "Y"
  /\ value (extract_text_between_anchors doc_sy "s" "s")
     <> get_text (Tag "p" [("id", "s")] [NavigableString "X"]).
Proof. repeat split. vm_compute. discriminate. Qed.

(** C3, amended.  With both anchors equal to an id present in the
    document, the result is the newline-join, trimmed, of the node's own
    text and of the texts of its following siblings up to the first one
    that compares equal to the node.  When none of them compares equal
    to it, that is the trimmed result of extracting after the anchor;
    it is the node's own text, trimmed, when the node has no following
    sibling. *)
Theorem between_same_anchor (soup : node) (anchor : string) (p : place) :
  find anchor soup = Some p ->
  extract_text_between_anchors soup anchor anchor
  = ret (strip (join NL (own_text (element p)
                         ++ pieces (siblings_before (element p) (next_siblings p)))))
  /\
  ((forall s, In s (next_siblings p) -> node_eqb s (element p) = false) ->
   extract_text_between_anchors soup anchor anchor
   = ret (strip (value (extract_text_after_anchor soup anchor))))
  /\
  (next_siblings p = [] ->
   extract_text_between_anchors soup anchor anchor
   = ret (strip (get_text (element p)))).
Proof.
  intros H. rewrite (between_anchors_found _ _ _ _ _ H H). unfold span_fragments.
  split; [reflexivity | split].
  - intros Hne. rewrite (LoopFacts.siblings_before_all _ _ Hne).
    now rewrite (after_anchor_found _ _ _ H).
  - intros Hnil. rewrite Hnil. cbn [siblings_before pieces flat_map].
    now rewrite app_nil_r, join_own_text.
Qed.

Lemma between_same_anchor_witness :
  extract_text_between_anchors doc_sy "s" "s"
  = ret (strip (value (extract_text_after_anchor doc_sy "s")))
  /\ extract_text_between_anchors doc_s "s" "s" = ret "X".
Proof.
  split.
  - refine (proj1 (proj2 (between_same_anchor doc_sy "s" _ eq_refl)) _).
    intros s [E | []]. now subst s.
  - exact (proj2 (proj2 (between_same_anchor doc_s "s" _ eq_refl)) eq_refl).
Defined.

End Anchors.

(* ================================================================== *)
(** ** Extraction across the documents of a book *)
(* ================================================================== *)

Module Slicing.

Import PyStr Soup Epub Processor Described Samples.

(** The loop goes on with the state it has reached: there is no way out
    of it before the last item. *)
Lemma scan_app (sn en sa ea : string) (st : scan_state) (l1 l2 : list item) :
  scan sn en sa ea st (l1 ++ l2) = scan sn en sa ea (scan sn en sa ea st l1) l2.
Proof. apply fold_left_app. Qed.

(** A round on an item whose file name contains the start name. *)
Lemma scan_step_start (sn en sa ea : string) (st : scan_state) (it : item) :
  contains sn (file_name it) = true ->
  scan_step sn en sa ea st it
  = mkScan true (text st ++ value (start_piece sa it))
           (lines st ++ printed (start_piece sa it)).
Proof.
  intros H. unfold scan_step, start_piece. rewrite H.
  destruct (truthy sa).
  - now destruct (extract_text_after_anchor (soup it) sa).
  - simpl. now rewrite app_nil_r.
Qed.

(** The text after the loop: the text before it followed by what the
    documents contribute, with nothing in between. *)
Lemma scan_text (sn en sa ea : string) (items : list item) (st : scan_state) :
  text (scan sn en sa ea st items)
  = text st ++ join "" (document_texts sn en sa ea (flag st) items).
Proof.
  revert st. induction items as [|it rest IH]; intros st.
  - simpl. now rewrite PyStrFacts.append_nil_r.
  - change (scan sn en sa ea st (it :: rest))
      with (scan sn en sa ea (scan_step sn en sa ea st it) rest).
    rewrite IH. cbn [document_texts].
    destruct (contains sn (file_name it)) eqn:Hs.
    + rewrite (scan_step_start _ _ _ _ _ _ Hs). cbn [text flag].
      now rewrite PyStrFacts.join_empty_cons, PyStrFacts.append_assoc.
    + unfold scan_step. rewrite Hs.
      destruct (contains en (file_name it)) eqn:He.
      * unfold end_piece. destruct (truthy ea).
        -- destruct (extract_text_before_anchor (soup it) ea) as [t l].
           cbn [text flag value fst].
           now rewrite PyStrFacts.join_empty_cons, PyStrFacts.append_assoc.
        -- cbn [text flag value fst ret].
           now rewrite PyStrFacts.join_empty_cons.
      * destruct (flag st) eqn:Hf.
        -- cbn [text flag].
           now rewrite PyStrFacts.join_empty_cons, PyStrFacts.append_assoc.
        -- now rewrite Hf.
Qed.

(** With the empty end name every item that is not a start document
    takes the end branch, which adds nothing when the end anchor is
    empty: only the start documents contribute. *)
Lemma sentinel_texts (sn sa : string) (items : list item) (f : bool) :
  join "" (document_texts sn "" sa "" f items)
  = join "" (map (fun it => value (start_piece sa it)) (matching sn items)).
Proof.
  revert f. induction items as [|it rest IH]; intros f; [reflexivity|].
  cbn [document_texts matching filter].
  destruct (contains sn (file_name it)) eqn:Hs.
  - cbn [map]. rewrite !PyStrFacts.join_empty_cons. f_equal. apply IH.
  - rewrite PyStrFacts.contains_empty. rewrite PyStrFacts.join_empty_cons.
    cbn [end_piece truthy value ret fst append]. apply IH.
Qed.

Lemma by_bookmark_crossing (b : book) (start_href end_href : string) :
  href_name start_href <> href_name end_href ->
  extract_text_by_bookmark b start_href end_href
  = (let st := scan (href_name start_href) (href_name end_href)
                 (href_anchor start_href) (href_anchor end_href)
                 (mkScan false "" []) (get_items b) in
     (text st, lines st)).
Proof.
  intros H. unfold extract_text_by_bookmark.
  apply String.eqb_neq in H. now rewrite H.
Qed.

Lemma by_bookmark_same_name_missing (b : book) (start_href end_href : string) :
  href_name start_href = href_name end_href ->
  first_match (href_name start_href) (get_items b) = None ->
  extract_text_by_bookmark b start_href end_href = ("", [href_not_found]).
Proof.
  intros H Hm. unfold extract_text_by_bookmark.
  rewrite <- H, String.eqb_refl, Hm. reflexivity.
Qed.

Lemma by_bookmark_sentinel (b : book) (start_href : string) :
  href_name start_href <> "" ->
  value (extract_text_by_bookmark b start_href "")
  = join "" (map (fun it => value (start_piece (href_anchor start_href) it))
                 (matching (href_name start_href) (get_items b))).
Proof.
  intros H. rewrite by_bookmark_crossing by exact H.
  cbv zeta. unfold value. cbn [fst]. rewrite scan_text. cbn [text flag append].
  change (href_name "") with "". change (href_anchor "") with "".
  apply sentinel_texts.
Qed.

(** C1, at the input where it fails.  The book has the documents
    "a.html" (text "X") and "b.html" (text "Y"); from "a.html" to the
    empty end reference only "X" comes out: the empty end name is
    contained in every file name, so "b.html" takes the end branch and
    contributes nothing. *)
Theorem sentinel_end_stops_after_start :
  contains (href_name "") (file_name item_b) = true
  /\ extract_text_by_bookmark book_ab "a.html" "" = ("X", []).
Proof. split; reflexivity. Qed.

(** C4, the statement as written fails: a span crossing two documents
    whose texts are " X" and "Y " gives " XY ", with no newline between
    the two texts and with the outer blanks kept. *)
Lemma crossing_span_is_not_trimmed :
  value (extract_text_by_bookmark book_blanks "a.html" "c.html") = " XY "
  /\ ~ trimmed (value (extract_text_by_bookmark book_blanks "a.html" "c.html")).
Proof. split; [reflexivity | vm_compute; discriminate]. Qed.

(** C4, amended.  When both references name the same document and both
    anchors are found in it, the content is the fragments of the span
    joined by newline, and it is trimmed.  When the references name
    different documents, the content is the texts taken from the visited
    documents put one after the other with no separator and without
    trimming. *)
Theorem chapter_content_shape (b : book) (start_href end_href : string) :
  (forall (it : item) (ps pe : place),
     href_name start_href = href_name end_href ->
     first_match (href_name start_href) (get_items b) = Some it ->
     find (href_anchor start_href) (soup it) = Some ps ->
     find (href_anchor end_href) (soup it) = Some pe ->
     value (extract_text_by_bookmark b start_href end_href)
     = strip (join NL (span_fragments ps pe))
     /\ trimmed (value (extract_text_by_bookmark b start_href end_href)))
  /\
  (href_name start_href <> href_name end_href ->
   value (extract_text_by_bookmark b start_href end_href)
   = join "" (document_texts (href_name start_href) (href_name end_href)
                (href_anchor start_href) (href_anchor end_href)
                false (get_items b))).
Proof.
  split.
  - intros it ps pe Hn Hm Hs He.
    assert (E : value (extract_text_by_bookmark b start_href end_href)
                = strip (join NL (span_fragments ps pe))).
    { unfold extract_text_by_bookmark.
      rewrite <- Hn, String.eqb_refl, Hm.
      now rewrite (Anchors.between_anchors_found _ _ _ _ _ Hs He). }
    split; [exact E|]. rewrite E. apply PyStrFacts.strip_trimmed.
  - intros Hn. rewrite by_bookmark_crossing by exact Hn.
    cbv zeta. unfold value. cbn [fst]. now rewrite scan_text.
Qed.

Lemma chapter_content_shape_witness :
  (value (extract_text_by_bookmark book_one "a.html#s" "a.html#e") = "X" ++ NL ++ "Y"
   /\ trimmed (value (extract_text_by_bookmark book_one "a.html#s" "a.html#e")))
  /\ value (extract_text_by_bookmark book_blanks "a.html" "c.html") = join "" [" X"; "Y "].
Proof.
  split.
  - exact (proj1 (chapter_content_shape book_one "a.html#s" "a.html#e")
             _ _ _ eq_refl eq_refl eq_refl eq_refl).
  - apply (proj2 (chapter_content_shape book_blanks "a.html" "c.html")).
    vm_compute. discriminate.
Defined.

(** C6, at the input where it fails.  The book has no document
    "a.html" and no document "c.html".  The span from "a.html" to
    "c.html" (different names) returns the empty string and prints
    nothing, whereas the span from "a.html#s" to "a.html#e" (same name)
    returns the empty string and prints "href not found.". *)
Theorem missing_document_is_silent :
  first_match "a.html" (get_items book_b) = None
  /\ extract_text_by_bookmark book_b "a.html" "c.html" = ("", [])
  /\ extract_text_by_bookmark book_b "a.html#s" "a.html#e" = ("", [href_not_found]).
Proof. repeat split. Qed.

(** C9.  When the two document names differ, the loop runs over the
    whole collection: an item whose file name contains the start name
    takes the start branch wherever it stands, also behind the end
    document; the loop reaches it with the state left by the items
    before it, sets the flag, appends the item's text, and goes on with
    the items that follow.  The appended text stays in the result. *)
Theorem scan_revisits_start (b : book) (start_href end_href : string)
    (pre post : list item) (it : item) :
  href_name start_href <> href_name end_href ->
  get_items b = (pre ++ it :: post)%list ->
  contains (href_name start_href) (file_name it) = true ->
  let run := scan (href_name start_href) (href_name end_href)
               (href_anchor start_href) (href_anchor end_href) in
  let reached := run (mkScan false "" []) pre in
  let piece := start_piece (href_anchor start_href) it in
  let final := run (mkScan true (text reached ++ value piece)
                      (lines reached ++ printed piece)) post in
  extract_text_by_bookmark b start_href end_href = (text final, lines final)
  /\ exists rest : string,
       value (extract_text_by_bookmark b start_href end_href)
       = text reached ++ value piece ++ rest.
Proof.
  intros Hn Hi Hc run reached piece final.
  assert (E : extract_text_by_bookmark b start_href end_href
              = (text final, lines final)).
  { rewrite by_bookmark_crossing by exact Hn. cbv zeta.
    rewrite Hi, scan_app.
    change (scan ?a ?b ?c ?d ?st (it :: post))
      with (scan a b c d (scan_step a b c d st it) post).
    now rewrite (scan_step_start _ _ _ _ _ _ Hc). }
  split; [exact E|].
  rewrite E. unfold value. cbn [fst]. unfold final, run.
  rewrite scan_text. cbn [text flag].
  eexists. now rewrite PyStrFacts.append_assoc.
Qed.

Lemma scan_revisits_start_witness :
  extract_text_by_bookmark book_aba "a.html" "b.html" = ("XW", [])
  /\ exists rest : string,
       value (extract_text_by_bookmark book_aba "a.html" "b.html")
       = "X" ++ "W" ++ rest.
Proof.
  refine (scan_revisits_start book_aba "a.html" "b.html"
            [item_a; item_b; item_c]
            [] (mkItem "old/a.html" (BeautifulSoup [NavigableString "W"]))
            _ eq_refl eq_refl).
  vm_compute. discriminate.
Defined.

End Slicing.

(* ================================================================== *)
(** ** Bookmarks and chapters *)
(* ================================================================== *)

Module Bookmarks.

Import PyStr Soup Epub Processor Described Samples.

Lemma split_loop_titles (b : book) (bookmarks : list bookmark) (n : nat)
    (rest : list bookmark) (i : nat) :
  map title (value (split_loop b bookmarks n i rest)) = map fst rest.
Proof.
  revert i. induction rest as [|[t h] r IH]; intros i; [reflexivity|].
  cbn [split_loop]. unfold bind at 1.
  destruct (extract_text_by_bookmark b h _) as [c l1].
  unfold bind at 1. cbn [print].
  unfold bind at 1. specialize (IH (i + 1)).
  destruct (split_loop b bookmarks n (i + 1) r) as [cs l3].
  cbn [ret value fst map title] in *. now rewrite IH.
Qed.

(** C5.  For a book whose list of bookmarks is not empty, there are as
    many chapters as bookmarks, and the titles of the chapters are the
    titles of the bookmarks, in the same order. *)
Theorem one_chapter_per_bookmark (b : book) :
  extract_bookmarks (toc b) "" <> [] ->
  let bookmarks := extract_bookmarks (toc b) "" in
  let chapters := value (split_text_by_bookmarks b) in
  List.length chapters = List.length bookmarks
  /\ map title chapters = map fst bookmarks.
Proof.
  intros _ bookmarks chapters.
  assert (E : map title chapters = map fst bookmarks)
    by apply split_loop_titles.
  split; [|exact E].
  rewrite <- (length_map title chapters), E. apply length_map.
Qed.

Lemma one_chapter_per_bookmark_witness :
  List.length (value (split_text_by_bookmarks book_ab)) = 2
  /\ map title (value (split_text_by_bookmarks book_ab)) = ["A"; "B"].
Proof.
  apply (one_chapter_per_bookmark book_ab). vm_compute. discriminate.
Defined.

(** C2, at the input where it fails.  Two links both titled "A" come
    out as "A" and "A3": the count is taken after the second title has
    been appended to the list of titles, so it is already 2 when 1 is
    added to it. *)
Theorem two_links_titled_A (href1 href2 : string) :
  extract_bookmarks [Link "A" href1; Link "A" href2] ""
  = [("A", href1); ("A3", href2)].
Proof. reflexivity. Qed.

(** C10.  A group is flattened by a call that starts from an empty list
    of titles and leaves the caller's list as it is; so the same title
    can come out twice without a suffix: once at the top level and once
    inside a group, or inside two different groups. *)
Theorem deduplication_is_local :
  (forall (prefix g : string) (titles : list string) (children : list toc_item),
     extract_item prefix titles (Group g children)
     = (titles, extract_bookmarks children g))
  /\ map fst (extract_bookmarks
                [Link "G|A" "h1"; Group "G" [Link "A" "h2"]] "")
     = ["G|A"; "G|A"]
  /\ map fst (extract_bookmarks
                [Group "G" [Link "A" "h1"]; Group "G" [Link "A" "h2"]] "")
     = ["G|A"; "G|A"].
Proof.
  split; [|split; reflexivity].
  intros prefix g titles children. apply LoopFacts.extract_item_group.
Qed.

End Bookmarks.

(* ================================================================== *)
(** ** References: document name and anchor *)
(* ================================================================== *)

Module Hrefs.

Import PyStr Soup Epub Processor Described Samples Outline.

Lemma contains_hash_cons (d : ascii) (r : string) :
  contains "#" (String d r) = Ascii.eqb d "#" || contains "#" r.
Proof.
  change (contains "#" (String d r))
    with (prefix "#" (String d r) || contains "#" r).
  f_equal. cbn [prefix]. destruct (ascii_dec "#" d) as [E | E].
  - subst d. rewrite Ascii.eqb_refl. now destruct r.
  - destruct (Ascii.eqb d "#") eqn:Ed; [|reflexivity].
    apply Ascii.eqb_eq in Ed. now subst d.
Qed.

Lemma split_without_hash (s : string) :
  contains "#" s = false -> split "#" s = [s].
Proof.
  induction s as [|d r IH]; intros H; [reflexivity|].
  rewrite contains_hash_cons in H. apply orb_false_iff in H as [Hd Hr].
  cbn [split]. now rewrite Hd, (IH Hr).
Qed.

Lemma split_at_first_hash (name rest : string) :
  contains "#" name = false ->
  split "#" (name ++ String "#" rest) = name :: split "#" rest.
Proof.
  induction name as [|d r IH]; intros H.
  - cbn [append split]. now rewrite Ascii.eqb_refl.
  - rewrite contains_hash_cons in H. apply orb_false_iff in H as [Hd Hr].
    cbn [append split]. now rewrite Hd, (IH Hr).
Qed.

Lemma contains_hash_after (name rest : string) :
  contains "#" (name ++ String "#" rest) = true.
Proof.
  induction name as [|d r IH].
  - cbn [append]. rewrite contains_hash_cons. now rewrite Ascii.eqb_refl.
  - cbn [append]. rewrite contains_hash_cons, IH. apply orb_true_r.
Qed.

(** X1.  A reference made of a name and an anchor, neither containing
    "#", is taken apart into that name and that anchor; a reference that
    is a bare name has the empty anchor; whatever follows a second "#"
    is dropped from the anchor. *)
Theorem href_parts (name anchor : string) :
  contains "#" name = false ->
  contains "#" anchor = false ->
  href_name (name ++ "#" ++ anchor) = name
  /\ href_anchor (name ++ "#" ++ anchor) = anchor
  /\ href_name name = name
  /\ href_anchor name = ""
  /\ forall tail : string,
       href_name (name ++ "#" ++ anchor ++ "#" ++ tail) = name
       /\ href_anchor (name ++ "#" ++ anchor ++ "#" ++ tail) = anchor.
Proof.
  intros Hn Ha. unfold href_name, href_anchor.
  change (name ++ "#" ++ anchor) with (name ++ String "#" anchor).
  rewrite (split_at_first_hash _ anchor Hn), contains_hash_after.
  rewrite (split_without_hash _ Ha), (split_without_hash _ Hn), Hn.
  repeat split.
  - change (name ++ "#" ++ anchor ++ "#" ++ tail)
      with (name ++ String "#" (anchor ++ String "#" tail)).
    now rewrite (split_at_first_hash _ _ Hn).
  - change (name ++ "#" ++ anchor ++ "#" ++ tail)
      with (name ++ String "#" (anchor ++ String "#" tail)).
    rewrite (split_at_first_hash _ _ Hn), contains_hash_after.
    now rewrite (split_at_first_hash _ _ Ha).
Qed.

Lemma href_parts_witness :
  href_name "Text/ch1.xhtml#sec2" = "Text/ch1.xhtml"
  /\ href_anchor "Text/ch1.xhtml#sec2" = "sec2".
Proof.
  pose proof (href_parts "Text/ch1.xhtml" "sec2" eq_refl eq_refl) as H.
  split; [exact (proj1 H) | exact (proj1 (proj2 H))].
Defined.

End Hrefs.

(* ================================================================== *)
(** ** More on the extraction inside one document *)
(* ================================================================== *)

Module Spans.

Import PyStr Soup Epub Processor Described Samples Outline.

Lemma trimmed_empty : trimmed "".
Proof. reflexivity. Qed.

Lemma siblings_before_stop (e stop : node) (mid post : list node) :
  (forall s, In s mid -> node_eqb s e = false) ->
  node_eqb stop e = true ->
  siblings_before e (mid ++ stop :: post) = mid.
Proof.
  intros Hmid Hstop. induction mid as [|s r IH]; cbn [app siblings_before].
  - now rewrite Hstop.
  - rewrite (Hmid s (or_introl eq_refl)). f_equal. apply IH.
    intros x Hx. apply Hmid. now right.
Qed.

Lemma before_anchor_trimmed (soup : node) (anchor : string) :
  trimmed (value (extract_text_before_anchor soup anchor)).
Proof.
  destruct (find anchor soup) as [p|] eqn:E.
  - rewrite (Anchors.before_anchor_found _ _ _ E). apply PyStrFacts.strip_trimmed.
  - rewrite (Anchors.before_anchor_missing _ _ E). exact trimmed_empty.
Qed.

(** X2.  The text before an anchor is always trimmed; when the anchor
    is found, it is made of the texts of the siblings standing before
    the element, in document order, joined by newline, and nothing is
    printed.  The element itself and what follows it play no part. *)
Theorem before_anchor_in_document_order (soup : node) (anchor : string) :
  trimmed (value (extract_text_before_anchor soup anchor))
  /\ forall (prevs nexts : list node) (e : node),
       find anchor soup = Some (prevs, e, nexts) ->
       extract_text_before_anchor soup anchor
       = (strip (join NL (pieces prevs)), []).
Proof.
  split.
  - apply before_anchor_trimmed.
  - intros prevs nexts e E. now rewrite (Anchors.before_anchor_found _ _ _ E).
Qed.

Lemma before_anchor_in_document_order_witness :
  extract_text_before_anchor doc_before "e" = ("A" ++ NL ++ "t", []).
Proof.
  exact (proj2 (before_anchor_in_document_order doc_before "e") _ _ _ eq_refl).
Defined.

(** X3.  When both anchors are found, the walk from the start element
    ends at the first following sibling that compares equal to the end
    element: the result is made of the start element's own text and of
    the texts of the siblings before that one; the siblings behind it
    never contribute. *)
Theorem between_stops_at_end (soup : node) (start_anchor end_anchor : string)
    (ps pe : place) (mid post : list node) (stop : node) :
  find start_anchor soup = Some ps ->
  find end_anchor soup = Some pe ->
  next_siblings ps = (mid ++ stop :: post)%list ->
  (forall s, In s mid -> node_eqb s (element pe) = false) ->
  node_eqb stop (element pe) = true ->
  extract_text_between_anchors soup start_anchor end_anchor
  = (strip (join NL (own_text (element ps) ++ pieces mid)), []).
Proof.
  intros Hs He Hn Hmid Hstop.
  rewrite (Anchors.between_anchors_found _ _ _ _ _ Hs He).
  unfold span_fragments. now rewrite Hn, (siblings_before_stop _ _ _ _ Hmid Hstop).
Qed.

Lemma between_stops_at_end_witness :
  extract_text_between_anchors doc_sye "s" "e" = ("X" ++ NL ++ "Y", []).
Proof.
  refine (between_stops_at_end doc_sye "s" "e" _ _
            [Tag "p" [] [NavigableString "Y"]] []
            (Tag "h1" [("id", "e")] [NavigableString "Z"])
            eq_refl eq_refl eq_refl _ eq_refl).
  intros s [E | []]. now subst s.
Defined.

(** X4.  When both anchors are found but no sibling following the start
    element compares equal to the end element (the end anchor stands
    before the start anchor, or under another parent), the result is
    the whole text after the start anchor, trimmed. *)
Theorem between_without_end_ahead (soup : node) (start_anchor end_anchor : string)
    (ps pe : place) :
  find start_anchor soup = Some ps ->
  find end_anchor soup = Some pe ->
  (forall s, In s (next_siblings ps) -> node_eqb s (element pe) = false) ->
  extract_text_between_anchors soup start_anchor end_anchor
  = (strip (value (extract_text_after_anchor soup start_anchor)), []).
Proof.
  intros Hs He Hn.
  rewrite (Anchors.between_anchors_found _ _ _ _ _ Hs He).
  rewrite (Anchors.after_anchor_found _ _ _ Hs).
  unfold span_fragments. now rewrite (LoopFacts.siblings_before_all _ _ Hn).
Qed.

Lemma between_without_end_ahead_witness :
  extract_text_between_anchors doc_reversed "s" "e"
  = (strip (value (extract_text_after_anchor doc_reversed "s")), []).
Proof.
  refine (between_without_end_ahead doc_reversed "s" "e" _ _ eq_refl eq_refl _).
  intros s [E | []]. now subst s.
Defined.

(** X5.  The text between two anchors is trimmed whenever the start
    anchor is missing or the end anchor is found, that is, whenever the
    call does not fall back on the text after the start anchor. *)
Theorem between_anchors_trimmed (soup : node) (start_anchor end_anchor : string) :
  find start_anchor soup = None \/ find end_anchor soup <> None ->
  trimmed (value (extract_text_between_anchors soup start_anchor end_anchor)).
Proof.
  intros H. destruct (find start_anchor soup) as [ps|] eqn:Hs.
  - destruct H as [H | H]; [discriminate|].
    destruct (find end_anchor soup) as [pe|] eqn:He; [|contradiction].
    rewrite (Anchors.between_anchors_found _ _ _ _ _ Hs He).
    apply PyStrFacts.strip_trimmed.
  - unfold extract_text_between_anchors. rewrite Hs.
    apply before_anchor_trimmed.
Qed.

Lemma between_anchors_trimmed_witness :
  trimmed (value (extract_text_between_anchors doc_before "zz" "e")).
Proof.
  apply (between_anchors_trimmed doc_before "zz" "e"). left. reflexivity.
Defined.

End Spans.

(* ================================================================== *)
(** ** More on the extraction across documents *)
(* ================================================================== *)

Module Crossing.

Import PyStr Soup Epub Processor Described Samples Outline.

Lemma none_matches_cons (name : string) (it : item) (l : list item) :
  none_matches name (it :: l) ->
  contains name (file_name it) = false /\ none_matches name l.
Proof.
  intros H. split; [apply H; now left | intros x Hx; apply H; now right].
Qed.

Lemma first_match_skip (name : string) (pre l : list item) :
  none_matches name pre -> first_match name (pre ++ l) = first_match name l.
Proof.
  induction pre as [|it r IH]; intros H; [reflexivity|].
  apply none_matches_cons in H as [Hi Hr].
  cbn [app first_match]. rewrite Hi. now apply IH.
Qed.

Lemma first_match_none (name : string) (items : list item) :
  first_match name items = None <-> none_matches name items.
Proof.
  induction items as [|it r IH]; cbn [first_match].
  - split; [intros _ x [] | reflexivity].
  - destruct (contains name (file_name it)) eqn:E.
    + split; [discriminate|]. intros H.
      rewrite (H it (or_introl eq_refl)) in E. discriminate.
    + rewrite IH. split.
      * intros H x [Hx | Hx]; [now subst x | now apply H].
      * intros H. now apply none_matches_cons in H.
Qed.

Lemma between_printed (soup : node) (sa ea : string) :
  printed (extract_text_between_anchors soup sa ea) = []
  \/ printed (extract_text_between_anchors soup sa ea) = [anchor_not_found].
Proof.
  unfold extract_text_between_anchors, extract_text_before_anchor,
    extract_text_after_anchor.
  destruct (find sa soup); destruct (find ea soup); cbn; auto.
Qed.

Lemma scan_step_end (sn en sa ea : string) (st : scan_state) (it : item) :
  contains sn (file_name it) = false ->
  contains en (file_name it) = true ->
  scan_step sn en sa ea st it
  = mkScan false (text st ++ value (end_piece ea it))
           (lines st ++ printed (end_piece ea it)).
Proof.
  intros Hs He. unfold scan_step, end_piece. rewrite Hs, He.
  destruct (truthy ea).
  - now destruct (extract_text_before_anchor (soup it) ea).
  - cbn [ret value printed fst snd].
    now rewrite PyStrFacts.append_nil_r, app_nil_r.
Qed.

(** Items matching neither name leave the state as it is while the flag
    is down. *)
Lemma scan_skip (sn en sa ea : string) (l : list item) (t : string)
    (ls : list string) :
  none_matches sn l -> none_matches en l ->
  scan sn en sa ea (mkScan false t ls) l = mkScan false t ls.
Proof.
  induction l as [|it r IH]; intros Hs He; [reflexivity|].
  apply none_matches_cons in Hs as [Hs Hsr].
  apply none_matches_cons in He as [He Her].
  change (scan sn en sa ea ?st (it :: r))
    with (scan sn en sa ea (scan_step sn en sa ea st it) r).
  unfold scan_step. rewrite Hs, He. cbn [flag]. now apply IH.
Qed.

(** Items matching neither name add their whole text while the flag is
    up. *)
Lemma scan_flagged (sn en sa ea : string) (l : list item) (t : string)
    (ls : list string) :
  none_matches sn l -> none_matches en l ->
  scan sn en sa ea (mkScan true t ls) l
  = mkScan true (t ++ join "" (map (fun it => get_text (soup it)) l)) ls.
Proof.
  revert t. induction l as [|it r IH]; intros t Hs He.
  - cbn. now rewrite PyStrFacts.append_nil_r.
  - apply none_matches_cons in Hs as [Hs Hsr].
    apply none_matches_cons in He as [He Her].
    change (scan sn en sa ea ?st (it :: r))
      with (scan sn en sa ea (scan_step sn en sa ea st it) r).
    unfold scan_step. rewrite Hs, He. cbn [flag text lines].
    rewrite (IH _ Hsr Her). cbn [map].
    now rewrite PyStrFacts.join_empty_cons, PyStrFacts.append_assoc.
Qed.

Lemma sentinel_lines (sn sa : string) (items : list item) (st : scan_state) :
  lines (scan sn "" sa "" st items)
  = (lines st
     ++ List.concat (map (fun it => printed (start_piece sa it))
                         (matching sn items)))%list.
Proof.
  revert st. induction items as [|it r IH]; intros st.
  - cbn. now rewrite app_nil_r.
  - change (scan sn "" sa "" st (it :: r))
      with (scan sn "" sa "" (scan_step sn "" sa "" st it) r).
    rewrite IH. cbn [matching filter].
    destruct (contains sn (file_name it)) eqn:Hs.
    + rewrite (Slicing.scan_step_start _ _ _ _ _ _ Hs). cbn [lines map List.concat].
      now rewrite <- app_assoc.
    + rewrite (scan_step_end _ _ _ _ _ _ Hs (PyStrFacts.contains_empty _)).
      cbn [lines end_piece truthy ret printed snd]. now rewrite app_nil_r.
Qed.

(** X6.  When both references name the same document, the first item
    whose file name contains the name decides the result: it is the
    text between the two anchors in that item, whatever items follow. *)
Theorem same_document_first_match (b : book) (start_href end_href : string)
    (pre post : list item) (it : item) :
  href_name start_href = href_name end_href ->
  get_items b = (pre ++ it :: post)%list ->
  none_matches (href_name start_href) pre ->
  contains (href_name start_href) (file_name it) = true ->
  extract_text_by_bookmark b start_href end_href
  = extract_text_between_anchors (soup it) (href_anchor start_href)
      (href_anchor end_href).
Proof.
  intros Hn Hi Hpre Hit. unfold extract_text_by_bookmark.
  rewrite <- Hn, String.eqb_refl, Hi, (first_match_skip _ _ _ Hpre).
  cbn [first_match]. now rewrite Hit.
Qed.

Lemma same_document_first_match_witness :
  extract_text_by_bookmark book_five "one.html#s" "one.html#zz"
  = extract_text_between_anchors (soup item_one) "s" "zz".
Proof.
  refine (same_document_first_match book_five "one.html#s" "one.html#zz"
            [item_cover] [item_mid; item_two; item_last] item_one
            eq_refl eq_refl _ eq_refl).
  intros x [E | []]. now subst x.
Defined.

(** X7.  When both references name the same document, the call returns
    the empty string and prints "href not found." exactly when no item
    has a file name containing the name. *)
Theorem same_document_missing (b : book) (start_href end_href : string) :
  href_name start_href = href_name end_href ->
  (none_matches (href_name start_href) (get_items b)
   <-> extract_text_by_bookmark b start_href end_href = ("", [href_not_found])).
Proof.
  intros Hn. rewrite <- first_match_none. unfold extract_text_by_bookmark.
  rewrite <- Hn, String.eqb_refl.
  destruct (first_match (href_name start_href) (get_items b)) as [it|].
  - split; [discriminate|]. intros E.
    destruct (between_printed (soup it) (href_anchor start_href)
                (href_anchor end_href)) as [P | P];
      unfold printed in P; rewrite E in P; discriminate.
  - split; reflexivity.
Qed.

Lemma same_document_missing_witness :
  extract_text_by_bookmark book_five "zero.html#s" "zero.html#e"
  = ("", [href_not_found]).
Proof.
  apply (same_document_missing book_five "zero.html#s" "zero.html#e" eq_refl).
  intros x H. cbn in H.
  repeat (destruct H as [H | H]; [now subst x|]). destruct H.
Defined.

(** X8.  When the references name different documents, the items
    standing before the first one that matches either name are passed
    over: the result is the same as for the book without them. *)
Theorem leading_documents_skipped (b : book) (start_href end_href : string)
    (pre rest : list item) :
  href_name start_href <> href_name end_href ->
  get_items b = (pre ++ rest)%list ->
  none_matches (href_name start_href) pre ->
  none_matches (href_name end_href) pre ->
  extract_text_by_bookmark b start_href end_href
  = extract_text_by_bookmark (mkBook rest (toc b)) start_href end_href.
Proof.
  intros Hn Hi Hs He.
  rewrite !Slicing.by_bookmark_crossing by exact Hn.
  cbn [get_items]. now rewrite Hi, Slicing.scan_app, (scan_skip _ _ _ _ _ _ _ Hs He).
Qed.

Lemma leading_documents_skipped_witness :
  extract_text_by_bookmark book_five "one.html#s" "two.html#e"
  = extract_text_by_bookmark
      (mkBook [item_one; item_mid; item_two; item_last] (toc book_five))
      "one.html#s" "two.html#e".
Proof.
  refine (leading_documents_skipped book_five "one.html#s" "two.html#e"
            [item_cover] _ _ eq_refl _ _).
  - vm_compute. discriminate.
  - intros x [E | []]. now subst x.
  - intros x [E | []]. now subst x.
Defined.

(** X9.  When the references name different documents and the
    collection holds one start document, then documents matching
    neither name, then one end document (no other item matching either
    name), the result is the start document's piece, the whole texts of
    the documents in between and the end document's piece, put one
    after the other; the documents before the start document and behind
    the end document contribute nothing. *)
Theorem span_across_documents (b : book) (start_href end_href : string)
    (pre mid post : list item) (s e : item) :
  href_name start_href <> href_name end_href ->
  get_items b = (pre ++ s :: mid ++ e :: post)%list ->
  none_matches (href_name start_href) (pre ++ mid ++ post) ->
  none_matches (href_name end_href) (pre ++ mid ++ post) ->
  contains (href_name start_href) (file_name s) = true ->
  contains (href_name start_href) (file_name e) = false ->
  contains (href_name end_href) (file_name e) = true ->
  extract_text_by_bookmark b start_href end_href
  = (value (start_piece (href_anchor start_href) s)
     ++ join "" (map (fun it => get_text (soup it)) mid)
     ++ value (end_piece (href_anchor end_href) e),
     (printed (start_piece (href_anchor start_href) s)
      ++ printed (end_piece (href_anchor end_href) e))%list).
Proof.
  intros Hn Hi Hs He Hss Hes Hee.
  assert (Sp : forall l, In l [pre; mid; post] ->
                 none_matches (href_name start_href) l
                 /\ none_matches (href_name end_href) l).
  { intros l Hl. split; intros x Hx; [apply Hs | apply He];
      cbn in Hl; rewrite !in_app_iff; intuition (subst; auto). }
  destruct (Sp pre) as [Hs1 He1]; [cbn; auto|].
  destruct (Sp mid) as [Hs2 He2]; [cbn; auto|].
  destruct (Sp post) as [Hs3 He3]; [cbn; auto|].
  rewrite Slicing.by_bookmark_crossing by exact Hn. cbv zeta.
  rewrite Hi, Slicing.scan_app, (scan_skip _ _ _ _ _ _ _ Hs1 He1).
  change (scan ?a ?b0 ?c ?d ?st (s :: ?l))
    with (scan a b0 c d (scan_step a b0 c d st s) l).
  rewrite (Slicing.scan_step_start _ _ _ _ _ _ Hss). cbn [text lines app append].
  rewrite Slicing.scan_app, (scan_flagged _ _ _ _ _ _ _ Hs2 He2).
  change (scan ?a ?b0 ?c ?d ?st (e :: ?l))
    with (scan a b0 c d (scan_step a b0 c d st e) l).
  rewrite (scan_step_end _ _ _ _ _ _ Hes Hee). cbn [text lines].
  rewrite (scan_skip _ _ _ _ _ _ _ Hs3 He3). cbn [text lines].
  now rewrite PyStrFacts.append_assoc.
Qed.

Lemma span_across_documents_witness :
  extract_text_by_bookmark book_five "one.html#s" "two.html#e"
  = (("S" ++ NL ++ "T") ++ "M" ++ "U", []).
Proof.
  refine (span_across_documents book_five "one.html#s" "two.html#e"
            [item_cover] [item_mid] [item_last] item_one item_two
            _ eq_refl _ _ eq_refl eq_refl eq_refl).
  - vm_compute. discriminate.
  - intros x H. cbn in H.
    repeat (destruct H as [H | H]; [now subst x|]). destruct H.
  - intros x H. cbn in H.
    repeat (destruct H as [H | H]; [now subst x|]). destruct H.
Defined.

(** X10.  With the empty end reference and a start reference whose name
    is not empty, the result is made of the pieces of the items whose
    file name contains the start name, and of nothing else: the text is
    their texts put one after the other, the printed lines are theirs. *)
Theorem empty_end_reference (b : book) (start_href : string) :
  href_name start_href <> "" ->
  extract_text_by_bookmark b start_href ""
  = (join "" (map (fun it => value (start_piece (href_anchor start_href) it))
                  (matching (href_name start_href) (get_items b))),
     List.concat (map (fun it => printed (start_piece (href_anchor start_href) it))
                      (matching (href_name start_href) (get_items b)))).
Proof.
  intros H. rewrite Slicing.by_bookmark_crossing by exact H. cbv zeta.
  change (href_name "") with "". change (href_anchor "") with "".
  rewrite Slicing.scan_text, sentinel_lines. cbn [text flag lines append app].
  now rewrite Slicing.sentinel_texts.
Qed.

Lemma empty_end_reference_witness :
  extract_text_by_bookmark book_five "one.html#s" "" = ("S" ++ NL ++ "T", []).
Proof.
  apply (empty_end_reference book_five "one.html#s"). vm_compute. discriminate.
Defined.

End Crossing.

(* ================================================================== *)
(** ** More on bookmarks and chapters *)
(* ================================================================== *)

Module Toc.

Import PyStr Soup Epub Processor Described Samples Outline.

Lemma link_hrefs_group (g : string) (children : list toc_item) :
  link_hrefs (Group g children) = toc_hrefs children.
Proof.
  cbn [link_hrefs]. unfold toc_hrefs.
  induction children as [|x r IH]; cbn [flat_map]; [reflexivity | now rewrite IH].
Qed.

Lemma extract_loop_hrefs (l : list toc_item) :
  Forall (fun it => forall prefix titles,
            map snd (snd (extract_item prefix titles it)) = link_hrefs it) l ->
  forall prefix titles,
    map snd (extract_loop prefix titles l) = toc_hrefs l.
Proof.
  induction 1 as [|x r Hx Hr IH]; intros prefix titles; [reflexivity|].
  cbn [extract_loop]. specialize (Hx prefix titles).
  destruct (extract_item prefix titles x) as [ts' bs]. cbn [snd] in Hx.
  change (toc_hrefs (x :: r)) with (link_hrefs x ++ toc_hrefs r)%list.
  rewrite map_app. f_equal; [exact Hx | apply IH].
Qed.

Lemma extract_item_hrefs (it : toc_item) :
  forall prefix titles,
    map snd (snd (extract_item prefix titles it)) = link_hrefs it.
Proof.
  induction it as [t h | g children IH | ] using toc_item_induction;
    intros prefix titles.
  - reflexivity.
  - rewrite LoopFacts.extract_item_group, link_hrefs_group. cbn [snd].
    now apply extract_loop_hrefs.
  - reflexivity.
Qed.

(** X11.  The bookmarks carry the hrefs of the links of the table of
    contents, all of them and in depth-first order: numbering changes
    titles only, and no link is dropped, doubled or moved. *)
Theorem bookmarks_keep_hrefs (toc : list toc_item) (prefix : string) :
  map snd (extract_bookmarks toc prefix) = toc_hrefs toc
  /\ List.length (extract_bookmarks toc prefix) = List.length (toc_hrefs toc).
Proof.
  assert (E : map snd (extract_bookmarks toc prefix) = toc_hrefs toc).
  { apply extract_loop_hrefs. apply Forall_forall.
    intros it _. apply extract_item_hrefs. }
  split; [exact E|]. now rewrite <- E, length_map.
Qed.

Lemma mem_absent (x : string) (l : list string) :
  ~ In x l -> mem x l = false.
Proof.
  intros H. unfold mem. destruct (existsb (String.eqb x) l) eqn:E; [|reflexivity].
  apply existsb_exists in E as [y [Hy Exy]].
  apply String.eqb_eq in Exy. now subst y.
Qed.

Lemma append_cancel (p s t : string) : p ++ s = p ++ t -> s = t.
Proof.
  induction p as [|c r IH]; cbn [append]; intros H; [exact H|].
  injection H as H. now apply IH.
Qed.

Lemma prefixed_injective (prefix s t : string) :
  prefixed prefix s = prefixed prefix t -> s = t.
Proof.
  unfold prefixed. destruct (truthy prefix); [|trivial].
  intros H. apply append_cancel in H. now injection H.
Qed.

Lemma extract_loop_distinct (prefix : string) (l : list (string * string)) :
  NoDup (map fst l) ->
  forall titles,
    (forall th, In th l -> ~ In (prefixed prefix (fst th)) titles) ->
    extract_loop prefix titles (links l)
    = map (fun th => (prefixed prefix (fst th), snd th)) l.
Proof.
  induction l as [|[t h] r IH]; intros Hnd titles Hfresh; [reflexivity|].
  cbn [map fst] in Hnd. inversion Hnd as [|? ? Hnotin Hnd']; subst.
  cbn [links map extract_loop fst snd].
  pose proof (LoopFacts.extract_item_fresh prefix t h titles) as E.
  cbv zeta in E. fold (prefixed prefix t) in E.
  rewrite E by (apply mem_absent; apply (Hfresh (t, h)); now left).
  cbn [app]. f_equal. apply (IH Hnd').
  intros th Hth Hin. apply in_app_or in Hin as [Hin | [Hin | []]].
  - apply (Hfresh th); [now right | exact Hin].
  - apply prefixed_injective in Hin. apply Hnotin. rewrite Hin.
    now apply in_map.
Qed.

(** X12.  In a table of contents made of links whose titles are
    pairwise different, no title is altered: every bookmark carries its
    link's title, behind the prefix and "|" when the prefix is not
    empty, and its link's href. *)
Theorem distinct_titles_unchanged (prefix : string) (l : list (string * string)) :
  NoDup (map fst l) ->
  extract_bookmarks (links l) prefix
  = map (fun th => (prefixed prefix (fst th), snd th)) l.
Proof.
  intros H. apply (extract_loop_distinct prefix l H). intros th _ [].
Qed.

Lemma distinct_titles_unchanged_witness :
  extract_bookmarks [Link "A" "a.html"; Link "B" "b.html"] "G"
  = [("G|A", "a.html"); ("G|B", "b.html")].
Proof.
  apply (distinct_titles_unchanged "G" [("A", "a.html"); ("B", "b.html")]).
  repeat constructor; cbn; intuition discriminate.
Defined.



End Toc.

(* ================================================================== *)
(** ** What the loops keep *)
(* ================================================================== *)

Module Kept.

Import PyStr Soup Epub Processor Described Samples Outline.

Lemma scan_lines_without_anchors (sn en : string) (items : list item)
    (st : scan_state) :
  lines (scan sn en "" "" st items) = lines st.
Proof.
  revert st. induction items as [|it r IH]; intros st; [reflexivity|].
  change (scan sn en "" "" st (it :: r))
    with (scan sn en "" "" (scan_step sn en "" "" st it) r).
  rewrite IH. unfold scan_step. cbn [truthy].
  destruct (contains sn (file_name it)); [reflexivity|].
  destruct (contains en (file_name it)); [reflexivity|].
  now destruct (flag st).
Qed.

(** X14.  The text after an anchor that is found is made of the
    element's own text and of the texts of the siblings following it,
    in order, joined by newline, and nothing is printed; an element
    with no text of its own adds no line of its own.  The siblings
    before the element play no part. *)
Theorem after_anchor_text (soup : node) (anchor : string)
    (prevs nexts : list node) (e : node) :
  find anchor soup = Some (prevs, e, nexts) ->
  extract_text_after_anchor soup anchor
  = (join NL (own_text e ++ pieces nexts), [])
  /\ (get_text e = "" ->
      extract_text_after_anchor soup anchor = (join NL (pieces nexts), [])).
Proof.
  intros H. rewrite (Anchors.after_anchor_found _ _ _ H).
  cbn [element next_siblings]. split; [reflexivity|].
  intros E. unfold own_text. now rewrite E.
Qed.

Lemma after_anchor_text_witness :
  extract_text_after_anchor doc_before "e" = ("Z" ++ NL ++ "B", []).
Proof.
  exact (proj1 (after_anchor_text doc_before "e" _ _ _ eq_refl)).
Defined.

(** X15.  When the references name different documents, what has been
    taken from the first documents of the collection is never lost or
    altered by the documents that follow: the result for the whole
    collection starts with the result for any leading part of it, for
    the text and for the printed lines alike. *)
Theorem earlier_text_is_kept (b : book) (start_href end_href : string)
    (l1 l2 : list item) :
  href_name start_href <> href_name end_href ->
  get_items b = (l1 ++ l2)%list ->
  exists (more : string) (more_lines : list string),
    value (extract_text_by_bookmark b start_href end_href)
    = value (extract_text_by_bookmark (mkBook l1 (toc b)) start_href end_href)
      ++ more
    /\ printed (extract_text_by_bookmark b start_href end_href)
       = (printed (extract_text_by_bookmark (mkBook l1 (toc b)) start_href end_href)
          ++ more_lines)%list.
Proof.
  intros Hn Hi. rewrite !Slicing.by_bookmark_crossing by exact Hn.
  cbv zeta. cbn [get_items value printed fst snd].
  rewrite Hi, Slicing.scan_app. set (st := scan _ _ _ _ _ l1).
  rewrite Slicing.scan_text. eexists. 
  assert (L : forall items s0,
            exists ml, lines (scan (href_name start_href) (href_name end_href)
                                (href_anchor start_href) (href_anchor end_href)
                                s0 items) = (lines s0 ++ ml)%list).
  { induction items as [|it r IH]; intros s0.
    - exists []. cbn. now rewrite app_nil_r.
    - change (scan ?a ?b0 ?c ?d s0 (it :: r))
        with (scan a b0 c d (scan_step a b0 c d s0 it) r).
      destruct (IH (scan_step (href_name start_href) (href_name end_href)
                      (href_anchor start_href) (href_anchor end_href) s0 it))
        as [ml E].
      rewrite E. unfold scan_step.
      destruct (contains (href_name start_href) (file_name it)).
      + destruct (truthy (href_anchor start_href)).
        * destruct (extract_text_after_anchor _ _) as [t l]. cbn [lines].
          rewrite <- app_assoc. eauto.
        * cbn [lines]. eauto.
      + destruct (contains (href_name end_href) (file_name it)).
        * destruct (truthy (href_anchor end_href)).
          -- destruct (extract_text_before_anchor _ _) as [t l]. cbn [lines].
             rewrite <- app_assoc. eauto.
          -- cbn [lines]. eauto.
        * destruct (flag s0); cbn [lines]; eauto. }
  destruct (L l2 st) as [ml E]. exists ml. split; [reflexivity | exact E].
Qed.

Lemma earlier_text_is_kept_witness :
  exists (more : string) (more_lines : list string),
    value (extract_text_by_bookmark book_five "one.html#s" "two.html#e")
    = value (extract_text_by_bookmark
               (mkBook [item_cover; item_one] (toc book_five))
               "one.html#s" "two.html#e") ++ more
    /\ printed (extract_text_by_bookmark book_five "one.html#s" "two.html#e")
       = (printed (extract_text_by_bookmark
                     (mkBook [item_cover; item_one] (toc book_five))
                     "one.html#s" "two.html#e") ++ more_lines)%list.
Proof.
  refine (earlier_text_is_kept book_five "one.html#s" "two.html#e"
            [item_cover; item_one] [item_mid; item_two; item_last] _ eq_refl).
  vm_compute. discriminate.
Defined.

(** X16.  When the references name different documents and neither
    carries an anchor, the call prints nothing, whatever the
    collection holds. *)
Theorem no_anchor_no_diagnostic (b : book) (start_href end_href : string) :
  href_name start_href <> href_name end_href ->
  href_anchor start_href = "" ->
  href_anchor end_href = "" ->
  printed (extract_text_by_bookmark b start_href end_href) = [].
Proof.
  intros Hn Hs He. rewrite Slicing.by_bookmark_crossing by exact Hn.
  cbv zeta. unfold printed. cbn [snd]. rewrite Hs, He.
  now rewrite scan_lines_without_anchors.
Qed.

Lemma no_anchor_no_diagnostic_witness :
  printed (extract_text_by_bookmark book_five "zero.html" "nine.html") = [].
Proof.
  apply (no_anchor_no_diagnostic book_five "zero.html" "nine.html");
    [vm_compute; discriminate | reflexivity | reflexivity].
Defined.

End Kept.
